(** * ChemSpiPy: the request layer and the search facade of [chemspipy/api.py]

    A shallow embedding of [BaseChemSpider.request] and of the API methods
    built on it ([MassSpecApi], [SearchApi], [CustomApi]).  Python values are
    an inductive type, exceptions are a result type, and the effects of the
    code (the mutable session headers of the client, the remote service, the
    exchanges on the wire) are threaded through an explicit state. *)

From Stdlib Require Import ZArith String Ascii List DecimalString.
From stdpp Require Import base decidable option list gmap strings.

Set Warnings "-register-all".
Local Open Scope string_scope.
Local Open Scope Z_scope.

(** ** Python values *)

(** The values that travel through the API: what [json.loads] produces and
    what callers pass as arguments.  A [float] is carried as its IEEE-754
    binary64 bit pattern (the code never computes with one); a [dict] keeps
    its insertion order. *)
Inductive pyval : Type :=
| PyNone
| PyBool (b : bool)
| PyInt (n : Z)
| PyFloat (bits : Z)
| PyStr (s : string)
| PyList (l : list pyval)
| PyDict (d : list (string * pyval)).

(** Exceptions: the builtin ones the code can run into, a network failure of
    the transport library, and the kinds imported from [chemspipy.errors].
    Each constructor is one class: [UnboundLocalError], which Python derives
    from [NameError], has a constructor of its own, so [NameError] here is
    the error of an unbound global name only. *)
Inductive exn : Type :=
| TypeError
| NameError (name : string)
| UnboundLocalError (name : string)
| KeyError (key : string)
| AttributeError (attr : string)
| ChemSpiPyError (msg : string)
| ChemSpiPyAuthError (msg : string)
| ChemSpiPyServerError (msg : string)
| ChemSpiPyParseError (msg : string)
| ChemSpiPyNotFoundError (msg : string).

(** The typed error kinds [request] raises on purpose from what the remote
    service answered. *)
Definition typed_error (e : exn) : bool :=
  match e with
  | ChemSpiPyAuthError _ | ChemSpiPyServerError _ | ChemSpiPyParseError _ => true
  | _ => false
  end.

Inductive result (A : Type) : Type :=
| Ok (a : A)
| Raise (e : exn).
Arguments Ok {A} a.
Arguments Raise {A} e.

(** Python truth value testing ([if x:], [x and y]). *)
Definition truthy (v : pyval) : bool :=
  match v with
  | PyNone => false
  | PyBool b => b
  | PyInt n => negb (n =? 0)
  | PyFloat bits => negb ((bits =? 0) || (bits =? 2 ^ 63))
  | PyStr s => negb (String.eqb s "")
  | PyList l => match l with [] => false | _ => true end
  | PyDict d => match d with [] => false | _ => true end
  end.

(** [x and y]: the first operand when it is falsy, else the second. *)
Definition py_and (x y : pyval) : pyval := if truthy x then y else x.

(** Iteration ([for el in v], [str.join(v)]): a list gives its elements, a
    string its characters, a dict its keys; anything else is not iterable.
    A string is a sequence of one-byte characters here, which is Python's
    sequence of code points for ASCII text. *)
Definition py_iter (v : pyval) : result (list pyval) :=
  match v with
  | PyList l => Ok l
  | PyStr s => Ok (map (fun c => PyStr (String c EmptyString)) (list_ascii_of_string s))
  | PyDict d => Ok (map (fun kv => PyStr (fst kv)) d)
  | _ => Raise TypeError
  end.

(** Whether a string is ASCII text. *)
Definition ascii_only (s : string) : bool :=
  forallb (fun c => (nat_of_ascii c <? 128)%nat) (list_ascii_of_string s).

(** [sep.join(items)]: every item has to be a string. *)
Fixpoint str_join (sep : string) (items : list pyval) : result string :=
  match items with
  | [] => Ok ""
  | PyStr s :: rest =>
      match rest with
      | [] => Ok s
      | _ => match str_join sep rest with
             | Ok t => Ok (s ++ sep ++ t)
             | Raise e => Raise e
             end
      end
  | _ :: _ => Raise TypeError
  end.

(** [el.text]: no value decoded from JSON has such an attribute. *)
Definition get_text (el : pyval) : result pyval := Raise (AttributeError "text").

(** A record identifier (CSID or transaction id): [None], a string or an
    int, as the docstrings type it. *)
Inductive ident : Type :=
| IdNone
| IdStr (s : string)
| IdInt (n : Z).

Definition ident_truthy (i : ident) : bool :=
  match i with
  | IdNone => false
  | IdStr s => negb (String.eqb s "")
  | IdInt n => negb (n =? 0)
  end.

(** ['%s' % i] *)
Definition ident_str (i : ident) : string :=
  match i with
  | IdNone => "None"
  | IdStr s => s
  | IdInt n => NilZero.string_of_int (Z.to_int n)
  end.

Definition ident_val (i : ident) : pyval :=
  match i with
  | IdNone => PyNone
  | IdStr s => PyStr s
  | IdInt n => PyInt n
  end.

(** ** Module constants *)

Definition ASCENDING : string := "ascending".
Definition DESCENDING : string := "descending".
Definition CSID : string := "csid".

(** ** The transport *)

(** Header values: a string, or Python's [None] (an absent API key). Header
    names are kept as written; the three names the code uses differ also
    when case is ignored. *)
Abbreviation header_map := (gmap string (option string)).

Inductive http_request : Type :=
| Post (url : string) (json : pyval) (headers : header_map)
| Get (url : string) (headers : header_map).

Record response : Type := { status_code : Z; text : string }.

(** What a call into the transport library ends with: a response, or a
    [requests.RequestException]. *)
Inductive http_outcome : Type :=
| Responded (r : response)
| RequestException (msg : string).

(** [json.loads]: a value, or a [json.JSONDecodeError] with its text.  The
    other ways the decoder can end (a [RecursionError] on a text nested too
    deep, a [ValueError] on a number too long) are not modelled. *)
Inductive decoded : Type :=
| Decoded (v : pyval)
| JSONDecodeError (msg : string).

(** The client object: what [BaseChemSpider.__init__] sets up. *)
Record client : Type := {
  api_url : string;
  apikey : option string;
  http_headers : header_map
}.

(** [BaseChemSpider.__init__].  The headers a fresh [requests.session()]
    carries and the text of the default user agent come from outside this
    module. *)
Definition BaseChemSpider_init (session_headers : header_map) (default_agent : string)
    (apikey user_agent : option string) (api_base_url api_path version : string) : client :=
  let agent := match user_agent with
               | Some ua => if String.eqb ua "" then default_agent else ua
               | None => default_agent
               end in
  {| api_url := api_base_url ++ "/" ++ api_path ++ "/" ++ version;
     apikey := apikey;
     http_headers :=
       <["Content-Type" := Some "application/json"]>
         (<["User-Agent" := Some agent]> session_headers) |}.

Definition apikey_val (k : option string) : pyval :=
  match k with Some s => PyStr s | None => PyNone end.

(** The client once [headers.update({'apikey': self.apikey})] has run on
    its session. *)
Definition stamped (c : client) : client :=
  {| api_url := api_url c; apikey := apikey c;
     http_headers := <["apikey" := apikey c]> (http_headers c) |}.

(** The headers a request carries. *)
Definition headers_of (rq : http_request) : header_map :=
  match rq with
  | Post _ _ h => h
  | Get _ h => h
  end.

(** The JSON body a request carries, if it is a POST. *)
Definition json_body (rq : http_request) : option pyval :=
  match rq with
  | Post _ body _ => Some body
  | Get _ _ => None
  end.

(** The state a call runs in: the client object, the remote service, and the
    exchanges with the service so far, oldest first. *)
Record world (remote : Type) : Type := {
  self : client;
  net : remote;
  wire : list (http_request * http_outcome)
}.
Arguments self {remote} w.
Arguments net {remote} w.
Arguments wire {remote} w.

(** ** A scripted remote service

    A service that plays back canned outcomes, one per request, and refuses
    the connection once the script is over; and a decoder for the bodies
    used with it. *)
Module Fixture.

Definition scripted (script : list http_outcome) (rq : http_request)
    : http_outcome * list http_outcome :=
  match script with
  | out :: rest => (out, rest)
  | [] => (RequestException "Connection refused", [])
  end.

Definition dquote : ascii := "034"%char.

Definition quoted (s : string) : string :=
  String dquote (s ++ String dquote "").

Definition plain_char (c : ascii) : bool :=
  negb (Ascii.eqb c dquote || Ascii.eqb c "\"%char).

(** The characters of a string literal up to its closing quote, when the
    quote ends the text and nothing in between needs an escape. *)
Fixpoint string_body (s : string) : option string :=
  match s with
  | EmptyString => None
  | String c rest =>
      if Ascii.eqb c dquote then
        match rest with EmptyString => Some "" | _ => None end
      else if plain_char c then option_map (String c) (string_body rest)
      else None
  end.

(** JSON texts that are one string literal without escapes, or one of the
    literals [null], [true], [false]; any other text is reported the way
    [json.loads] reports a text that is not JSON. *)
Definition loads (s : string) : decoded :=
  let malformed := JSONDecodeError "Expecting value: line 1 column 1 (char 0)" in
  if String.eqb s "null" then Decoded PyNone
  else if String.eqb s "true" then Decoded (PyBool true)
  else if String.eqb s "false" then Decoded (PyBool false)
  else match s with
       | String c rest =>
           if Ascii.eqb c dquote then
             match string_body rest with
             | Some body => Decoded (PyStr body)
             | None => malformed
             end
           else malformed
       | EmptyString => malformed
       end.

(** A decoder that knows the bodies of a table, and reports any other text
    as undecodable. *)
Fixpoint canned (table : list (string * pyval)) (s : string) : decoded :=
  match table with
  | [] => JSONDecodeError "Expecting value: line 1 column 1 (char 0)"
  | (body, v) :: rest => if String.eqb body s then Decoded v else canned rest s
  end.

Definition respond (code : Z) (body : string) : http_outcome :=
  Responded {| status_code := code; text := body |}.

(** A client as [ChemSpider('key')] builds it. *)
Definition cs : client :=
  BaseChemSpider_init ∅ "ChemSpiPy/2.0.0 Python/3.8.10 " (Some "key") None
    "https://api.rsc.org" "compounds" "v1".

Definition start (script : list http_outcome) : world (list http_outcome) :=
  {| self := cs; net := script; wire := [] |}.

(** The keyword arguments of a name search for benzene, and the request
    that search puts on the wire. *)
Definition benzene : gmap string pyval :=
  {["data" := PyDict [("name", PyStr "benzene")]]}.

Definition benzene_post : http_request :=
  Post "https://api.rsc.org/compounds/v1/filter/name"
    (PyDict [("name", PyStr "benzene")]) (http_headers (stamped cs)).

(** The status check of the transaction abc-123. *)
Definition status_get : http_request :=
  Get "https://api.rsc.org/compounds/v1/filter/abc-123/status"
    (http_headers (stamped cs)).

(** Bodies of answers, and the values they decode to. *)
Definition record_body : string :=
  "{" ++ quoted "id" ++ ": 2157, " ++ quoted "mol2D" ++ ": " ++ quoted "molfile" ++ "}".

Definition id_body : string := "{" ++ quoted "id" ++ ": 2157}".

Definition sources_body : string :=
  "{" ++ quoted "dataSources" ++ ": [" ++ quoted "PubChem" ++ ", " ++ quoted "ChEBI" ++ "]}".

Definition bodies : list (string * pyval) :=
  [ (record_body, PyDict [("id", PyInt 2157); ("mol2D", PyStr "molfile")]);
    (id_body, PyDict [("id", PyInt 2157)]);
    (sources_body, PyDict [("dataSources", PyList [PyStr "PubChem"; PyStr "ChEBI"])]);
    ("[2157]", PyList [PyInt 2157]) ].

(** The GET of the details of record 2157 with a [fields] parameter. *)
Definition details_get (fields : string) : http_request :=
  Get ("https://api.rsc.org/compounds/v1/records/2157/details?fields=" ++ fields)
    (http_headers (stamped cs)).

End Fixture.

(** ** The API *)

Section Api.

(** The remote service is a state machine answering one request at a time;
    [json_loads] is the decoder of the standard library. *)
Context {remote : Type}.
Variable serve : remote -> http_request -> http_outcome * remote.
Variable json_loads : string -> decoded.

(** Computations: state passing with exceptions.  A raised exception keeps
    the state reached so far. *)
Definition Py (A : Type) : Type := world remote -> result A * world remote.

Definition ret {A} (a : A) : Py A := fun w => (Ok a, w).
Definition raise {A} (e : exn) : Py A := fun w => (Raise e, w).
Definition bind {A B} (m : Py A) (k : A -> Py B) : Py B :=
  fun w => match m w with
           | (Ok a, w') => k a w'
           | (Raise e, w') => (Raise e, w')
           end.
Definition lift {A} (r : result A) : Py A := fun w => (r, w).

Notation "'do' x <- m 'in' k" := (bind m (fun x => k))
  (at level 10, x name, m at level 100, k at level 200).
Notation "'run' m 'then' k" := (bind m (fun _ => k))
  (at level 10, m at level 100, k at level 200).

Definition get_self : Py client := fun w => (Ok (self w), w).

(** [self.http.headers.update({'apikey': self.apikey})] *)
Definition update_apikey_header : Py unit :=
  fun w => (Ok tt, {| self := stamped (self w); net := net w; wire := wire w |}).

(** One call into the transport library, recorded on the wire. *)
Definition http (rq : http_request) : Py http_outcome :=
  fun w =>
    let (out, n) := serve (net w) rq in
    (Ok out, {| self := self w; net := n; wire := wire w ++ [(rq, out)] |}).

(** [try: ... except requests.RequestException as e: raise ChemSpiPyError(...)] *)
Definition send (rq : http_request) : Py response :=
  do out <- http rq in
  match out with
  | Responded r => ret r
  | RequestException msg => raise (ChemSpiPyError msg)
  end.

(** The first lines of [request]: the URL, with the record identifier and
    the [fields] query parameter when there is a record identifier. *)
Definition build_url (base api endpoint : string) (record_id : ident)
    (params : gmap string pyval) : result string :=
  if ident_truthy record_id then
    let url := base ++ "/" ++ api ++ "/" ++ ident_str record_id ++ "/" ++ endpoint in
    match params !! "fields" with
    | Some fields =>
        match py_iter fields with
        | Ok items =>
            match str_join "," items with
            | Ok parameters => Ok (url ++ "?fields=" ++ parameters)
            | Raise e => Raise e
            end
        | Raise e => Raise e
        end
    | None => Ok url
    end
  else Ok (base ++ "/" ++ api ++ "/" ++ endpoint).

(** The chain of tests on [response.status_code]. *)
Definition check_status (r : response) : result unit :=
  let code := status_code r in
  if code =? 200 then Ok tt
  else if code =? 400 then
    Raise (ChemSpiPyAuthError "Bad Request. Check the request you sent and try again.")
  else if code =? 401 then
    Raise (ChemSpiPyAuthError "Unauthorized. Check you have supplied the correct API key and that you have sent it as an HTTP Header called 'apikey'.")
  else if code =? 404 then
    Raise (ChemSpiPyAuthError "Not Found. The requested endpoint URL is not recognized. Change your request and try again.")
  else if code =? 405 then
    Raise (ChemSpiPyAuthError "Method Not Allowed. The verb is incorrect for the endpoint. Change your request and try again.")
  else if code =? 413 then
    Raise (ChemSpiPyAuthError "Payload Too Large. The request you sent was too big to handle. Change your request and try again.")
  else if code =? 429 then
    Raise (ChemSpiPyAuthError "Too Many Requests. Send fewer requests, or use rate-limiting to slow them down, then try again.")
  else if code =? 500 then
    Raise (ChemSpiPyAuthError "Internal Server Error. Wait and try again.")
  else if code =? 503 then
    Raise (ChemSpiPyAuthError "Service Unavailable. Wait and try again.")
  else Raise (ChemSpiPyServerError (text r)).

(** [json.loads(response.text)] under its [except json.JSONDecodeError]. *)
Definition decode (r : response) : result pyval :=
  match json_loads (text r) with
  | Decoded v => Ok v
  | JSONDecodeError msg =>
      Raise (ChemSpiPyParseError ("Unable to parse json response: " ++ msg))
  end.

(** [BaseChemSpider.request].  The local [response] is bound only in the
    POST and GET branches: it is an [option] until it is read. *)
Definition request (api endpoint http_verb : string) (record_id : ident)
    (params : gmap string pyval) : Py pyval :=
  do c <- get_self in
  do url <- lift (build_url (api_url c) api endpoint record_id params) in
  let params := <["apikey" := apikey_val (apikey c)]> params in
  do response <-
    (if String.eqb http_verb "POST" then
       let url := api_url c ++ "/" ++ api ++ "/" ++ endpoint in
       run update_apikey_header then
       do c <- get_self in
       match params !! "data" with
       | Some data => do r <- send (Post url data (http_headers c)) in ret (Some r)
       | None => raise (KeyError "data")
       end
     else if String.eqb http_verb "GET" then
       run update_apikey_header then
       do c <- get_self in
       do r <- send (Get url (http_headers c)) in ret (Some r)
     else ret None) in
  match response with
  | None => raise (UnboundLocalError "response")
  | Some r =>
      run lift (check_status r) then
      lift (decode r)
  end.

(** The last lines of [request], from the status test on. *)
Definition read_response (r : response) : result pyval :=
  match check_status r with
  | Ok _ => decode r
  | Raise e => Raise e
  end.

(** The state after [request] has stamped the headers and exchanged [rq]
    with the service, and what [request] ends with after that exchange. *)
Definition exchange (w : world remote) (rq : http_request) : world remote :=
  {| self := stamped (self w); net := snd (serve (net w) rq);
     wire := wire w ++ [(rq, fst (serve (net w) rq))] |}.

Definition finish (out : http_outcome) : result pyval :=
  match out with
  | Responded r => read_response r
  | RequestException msg => Raise (ChemSpiPyError msg)
  end.

(** A call site of [request].  Python binds the arguments before it runs the
    body: a call that leaves out the required positional parameter
    [http_verb] ([None] here) raises [TypeError] and runs nothing. *)
Definition call_request (api endpoint : string) (http_verb : option string)
    (record_id : ident) (params : gmap string pyval) : Py pyval :=
  match http_verb with
  | Some verb => request api endpoint verb record_id params
  | None => raise TypeError
  end.

(** *** Records *)

(** Modelled from the spec: the class [Compound] of [chemspipy/objects.py],
    which is not part of this module.  A record handle is built from the
    owning client and an identifier, and building it makes no remote call. *)
Record Compound : Type := { csid : pyval }.

(** [[Compound(self, el.text) for el in response]] *)
Fixpoint compounds_of (els : list pyval) : result (list Compound) :=
  match els with
  | [] => Ok []
  | el :: rest =>
      match get_text el with
      | Ok t =>
          match compounds_of rest with
          | Ok cs => Ok ({| csid := t |} :: cs)
          | Raise e => Raise e
          end
      | Raise e => Raise e
      end
  end.

Definition wrap_compounds (response : pyval) : result (list Compound) :=
  match py_iter response with
  | Ok els => compounds_of els
  | Raise e => Raise e
  end.

(** *** MassSpecApi *)

(** [simple_search_by_formula(formula, datasources=None)]; an argument left
    out at the call is [None] here and takes the default of the signature.
    The name [data] is bound nowhere. *)
Definition simple_search_by_formula (formula : pyval) (datasources : option pyval)
    : Py (list Compound) :=
  let datasources := default PyNone datasources in
  let payload := PyDict [("formula", formula)] in
  run (if truthy datasources then raise (NameError "data") else ret tt) then
  do response <- call_request "filter" "formula" (Some "POST") IdNone {["data" := payload]} in
  lift (wrap_compounds response).

(** [simple_search_by_mass(mass, mass_range, datasources=None)] *)
Definition simple_search_by_mass (mass mass_range : pyval) (datasources : option pyval)
    : Py (list Compound) :=
  let datasources := default PyNone datasources in
  let payload := PyDict [("mass", mass); ("range", mass_range)] in
  run (if truthy datasources then raise (NameError "data") else ret tt) then
  do response <- call_request "filter" "mass" (Some "POST") IdNone {["data" := payload]} in
  lift (wrap_compounds response).

(** *** SearchApi *)

Definition async_simple_search (query : pyval) : Py pyval :=
  let payload := PyDict [("name", query)] in
  call_request "filter" "name" (Some "POST") IdNone {["data" := payload]}.

(** [async_simple_search_ordered(query, order=CSID, direction=ASCENDING)] *)
Definition async_simple_search_ordered (query : pyval) (order direction : option pyval)
    : Py pyval :=
  let order := default (PyStr CSID) order in
  let direction := default (PyStr ASCENDING) direction in
  let payload :=
    PyDict [("name", query); ("orderBy", order); ("orderDirection", direction)] in
  call_request "filter" "name" (Some "POST") IdNone {["data" := payload]}.

Definition get_async_search_status (rid : ident) : Py pyval :=
  call_request "filter" "status" (Some "GET") rid ∅.

Definition get_async_search_status_and_count (rid : ident) : Py pyval :=
  call_request "filter" "status" (Some "GET") rid ∅.

Definition get_async_search_result (rid : ident) : Py (list Compound) :=
  do response <-
    call_request "Search" "GetAsyncSearchResult" None IdNone {["rid" := ident_val rid]} in
  lift (wrap_compounds response).

(** [get_async_search_result_part(rid, start=0, count=-1)] *)
Definition get_async_search_result_part (rid : ident) (start count : option Z)
    : Py (list Compound) :=
  let start := default 0 start in
  let count := default (-1) count in
  do response <-
    call_request "Search" "GetAsyncSearchResultPart" None IdNone
      (<["count" := PyInt count]> (<["start" := PyInt start]> {["rid" := ident_val rid]})) in
  lift (wrap_compounds response).

(** *** The search session *)

(** The states a search goes through on the remote service. *)
Inductive search_status : Type :=
| Unknown | Created | Scheduled | Processing | Suspended
| PartialResultReady | ResultReady | Failed | TooManyRecords.

Definition status_name (s : search_status) : string :=
  match s with
  | Unknown => "Unknown"
  | Created => "Created"
  | Scheduled => "Scheduled"
  | Processing => "Processing"
  | Suspended => "Suspended"
  | PartialResultReady => "PartialResultReady"
  | ResultReady => "ResultReady"
  | Failed => "Failed"
  | TooManyRecords => "TooManyRecords"
  end.

(** Modelled from the spec: the class [Results] of [chemspipy/search.py],
    which is not part of this module: the attributes of a search session. *)
Record Results : Type := {
  transaction_id : option pyval;
  status : search_status;
  count : option Z;
  message : option string;
  exception : option exn;
  raise_errors : bool
}.

(** Modelled from the spec: the constructor [Results(cs, searchfunc,
    searchargs, raise_errors)] of [chemspipy/search.py].  The submission
    [searchfunc( *searchargs)] runs inside the construction; when it succeeds
    its answer is stored as the transaction id; when it fails the exception
    is raised at once under [raise_errors], and stored on the session
    otherwise. *)
Definition Results_init (submission : Py pyval) (raise_errors : bool) : Py Results :=
  fun w =>
    match submission w with
    | (Ok rid, w') =>
        (Ok {| transaction_id := Some rid; status := Unknown; count := None;
               message := None; exception := None; raise_errors := raise_errors |}, w')
    | (Raise e, w') =>
        if raise_errors then (Raise e, w')
        else
          (Ok {| transaction_id := None; status := Unknown; count := None;
                 message := None; exception := Some e; raise_errors := raise_errors |}, w')
    end.

(** *** CustomApi *)

Definition get_compound (id : pyval) : Compound := {| csid := id |}.

Definition get_compounds (csids : list pyval) : list Compound :=
  map (fun id => {| csid := id |}) csids.

(** [search(query, order=None, direction=ASCENDING, raise_errors=False)] *)
Definition search (query : pyval) (order direction : option pyval)
    (raise_errors : option bool) : Py Results :=
  let order := default PyNone order in
  let direction := default (PyStr ASCENDING) direction in
  let raise_errors := default false raise_errors in
  if truthy (py_and order direction) then
    Results_init (async_simple_search_ordered query (Some order) (Some direction)) raise_errors
  else
    Results_init (async_simple_search query) raise_errors.

(** *** Dictionaries *)

(** The value a dict holds under a key; the keys of a dict are distinct. *)
Fixpoint dict_get (key : string) (d : list (string * pyval)) : option pyval :=
  match d with
  | [] => None
  | (k, v) :: rest => if String.eqb k key then Some v else dict_get key rest
  end.

(** [v[key]] with a string key: a dict gives its value or a [KeyError];
    lists and strings want integer indices, and the other values cannot be
    subscripted. *)
Definition py_getitem (v : pyval) (key : string) : result pyval :=
  match v with
  | PyDict d =>
      match dict_get key d with
      | Some x => Ok x
      | None => Raise (KeyError key)
      end
  | _ => Raise TypeError
  end.

(** [v.keys()]: only a dict has the method. *)
Definition py_keys (v : pyval) : result (list string) :=
  match v with
  | PyDict d => Ok (map fst d)
  | _ => Raise (AttributeError "keys")
  end.

(** [v.pop(key)]: the value removed from the dict (which is not read
    again). *)
Definition py_pop (v : pyval) (key : string) : result pyval :=
  match v with
  | PyDict d =>
      match dict_get key d with
      | Some x => Ok x
      | None => Raise (KeyError key)
      end
  | _ => Raise (AttributeError "pop")
  end.

(** [for key in keys: if key != 'id': break], as the value the loop leaves
    in [key], which is unbound ([None]) before the first round. *)
Fixpoint skip_id (key : option string) (keys : list string) : option string :=
  match keys with
  | [] => key
  | k :: rest => if negb (String.eqb k "id") then Some k else skip_id (Some k) rest
  end.

(** *** MassSpecApi, the lookups *)

Definition get_databases : Py pyval :=
  do response <- call_request "lookups" "datasources" (Some "GET") IdNone ∅ in
  lift (py_getitem response "dataSources").

(** [get_extended_compound_info(csid, **params)]: [params['fields']] is
    read while the arguments of [request] are built. *)
Definition get_extended_compound_info (csid : ident) (params : gmap string pyval)
    : Py pyval :=
  match params !! "fields" with
  | Some fields => call_request "records" "details" (Some "GET") csid {["fields" := fields]}
  | None => raise (KeyError "fields")
  end.

(** [get_record_mol(csid, calc3d=False)] *)
Definition get_record_mol (csid : ident) (calc3d : option bool) : Py pyval :=
  let calc3d := default false calc3d in
  do response <-
    (if Bool.eqb calc3d false then
       call_request "records" "details" (Some "GET") csid
         {["fields" := PyList [PyStr "mol2D"]]}
     else
       call_request "records" "details" (Some "GET") csid
         {["fields" := PyList [PyStr "mol3D"]]}) in
  do keys <- lift (py_keys response) in
  match skip_id None keys with
  | Some key => lift (py_pop response key)
  | None => raise (UnboundLocalError "key")
  end.

(** The last lines of [get_record_mol], from [response.keys()] on. *)
Definition first_field (response : pyval) : result pyval :=
  match py_keys response with
  | Ok keys =>
      match skip_id None keys with
      | Some key => py_pop response key
      | None => Raise (UnboundLocalError "key")
      end
  | Raise e => Raise e
  end.

(** *** SearchApi and InchiApi, the methods that call [request] with two
    positional arguments *)

Definition get_compound_info (csid : ident) : Py pyval :=
  do response <-
    call_request "Search" "GetCompoundInfo" None IdNone {["csid" := ident_val csid]} in
  raise (NameError "xml_to_dict").

Definition simple_search (query : pyval) : Py (list Compound) :=
  do response <-
    call_request "Search" "SimpleSearch" None IdNone {["query" := query]} in
  lift (wrap_compounds response).

Definition get_original_mol (csid : ident) : Py pyval :=
  do response <- call_request "InChI" "CSIDToMol" None IdNone {["csid" := ident_val csid]} in
  lift (get_text response).

Definition get_csid_from_inchikey (inchikey : pyval) : Py pyval :=
  do response <-
    call_request "InChI" "InChIKeyToCSID" None IdNone {["inchi_key" := inchikey]} in
  lift (get_text response).

Definition get_mol_from_inchikey (inchikey : pyval) : Py pyval :=
  do response <-
    call_request "InChI" "InChIKeyToMol" None IdNone {["inchi_key" := inchikey]} in
  lift (get_text response).

Definition get_inchi_from_inchikey (inchikey : pyval) : Py pyval :=
  do response <-
    call_request "InChI" "InChIKeyToInChI" None IdNone {["inchi_key" := inchikey]} in
  lift (get_text response).

Definition get_csid_from_inchi (inchi : pyval) : Py pyval :=
  do response <- call_request "InChI" "InChIToCSID" None IdNone {["inchi" := inchi]} in
  lift (get_text response).

Definition get_inchikey_from_inchi (inchi : pyval) : Py pyval :=
  do response <- call_request "InChI" "InChIToInChIKey" None IdNone {["inchi" := inchi]} in
  lift (get_text response).

Definition get_mol_from_inchi (inchi : pyval) : Py pyval :=
  do response <- call_request "InChI" "InChIToMol" None IdNone {["inchi" := inchi]} in
  lift (get_text response).

(** *** Polling a session *)

(** Modelled from the spec: the transaction of a session as the record
    identifier of its status checks.  The transaction id is the token the
    service handed out at submission, a string or a number; a session that
    holds none polls without an identifier. *)
Definition rid_of (session : Results) : ident :=
  match transaction_id session with
  | Some (PyStr s) => IdStr s
  | Some (PyInt n) => IdInt n
  | _ => IdNone
  end.

Definition status_of_name (name : string) : search_status :=
  if String.eqb name "Created" then Created
  else if String.eqb name "Scheduled" then Scheduled
  else if String.eqb name "Processing" then Processing
  else if String.eqb name "Suspended" then Suspended
  else if String.eqb name "PartialResultReady" then PartialResultReady
  else if String.eqb name "ResultReady" then ResultReady
  else if String.eqb name "Failed" then Failed
  else if String.eqb name "TooManyRecords" then TooManyRecords
  else Unknown.

(** Modelled from the spec: what [status()] reads off the answer of the
    service: the status, and the count and the message when the answer
    includes them (under the names [Status], [Count] and [Message] of the
    table [FIELDS]). *)
Definition read_answer (session : Results) (answer : pyval) : Results :=
  match answer with
  | PyStr name =>
      {| transaction_id := transaction_id session; status := status_of_name name;
         count := count session; message := message session;
         exception := exception session; raise_errors := raise_errors session |}
  | PyDict d =>
      {| transaction_id := transaction_id session;
         status := match dict_get "Status" d with
                   | Some (PyStr name) => status_of_name name
                   | _ => status session
                   end;
         count := match dict_get "Count" d with
                  | Some (PyInt n) => Some n
                  | _ => count session
                  end;
         message := match dict_get "Message" d with
                    | Some (PyStr m) => Some m
                    | _ => message session
                    end;
         exception := exception session; raise_errors := raise_errors session |}
  | _ => session
  end.

(** Modelled from the spec: the operation [status()] of [Results], one poll.
    It issues the status check of the transaction, reads the answer into the
    session and returns the status.  When the check fails the exception is
    raised at once under [raise_errors]; otherwise it is stored on the
    session and the sentinel [None] is returned.  The session after the
    call is part of the result. *)
Definition Results_status (session : Results) : Py (Results * option search_status) :=
  fun w =>
    match get_async_search_status_and_count (rid_of session) w with
    | (Ok answer, w') =>
        let session' := read_answer session answer in
        (Ok (session', Some (status session')), w')
    | (Raise e, w') =>
        if raise_errors session then (Raise e, w')
        else
          (Ok ({| transaction_id := transaction_id session; status := status session;
                  count := count session; message := message session;
                  exception := Some e; raise_errors := raise_errors session |},
               None), w')
    end.

(** *** Repeated polling *)

(** [n] status checks of one transaction, one after the other, each answer
    dropped (also when it is an exception, as a caller that polls on
    does). *)
Fixpoint poll (n : nat) (rid : ident) (w : world remote) : world remote :=
  match n with
  | O => w
  | S m => poll m rid (snd (get_async_search_status rid w))
  end.

(** ** Properties *)

(** *** The shape of a run of [request] *)

Lemma lookup_data_apikey (params : gmap string pyval) (v : pyval) :
  <["apikey" := v]> params !! "data" = params !! "data".
Proof. by apply lookup_insert_ne. Qed.

(** A run of [request], branch by branch. *)
Lemma request_run api endpoint verb rid params (w : world remote) :
  request api endpoint verb rid params w =
  match build_url (api_url (self w)) api endpoint rid params with
  | Raise e => (Raise e, w)
  | Ok url =>
      if String.eqb verb "POST" then
        match params !! "data" with
        | Some data =>
            let rq := Post (api_url (self w) ++ "/" ++ api ++ "/" ++ endpoint) data
                        (http_headers (stamped (self w))) in
            (finish (fst (serve (net w) rq)), exchange w rq)
        | None =>
            (Raise (KeyError "data"),
             {| self := stamped (self w); net := net w; wire := wire w |})
        end
      else if String.eqb verb "GET" then
        let rq := Get url (http_headers (stamped (self w))) in
        (finish (fst (serve (net w) rq)), exchange w rq)
      else (Raise (UnboundLocalError "response"), w)
  end.
Proof.
  unfold request, bind at 1 2, get_self, lift at 1.
  destruct (build_url _ _ _ _ _) as [url|e]; [|reflexivity].
  destruct (String.eqb verb "POST").
  - unfold bind at 2 3, update_apikey_header, get_self. cbn [self].
    rewrite lookup_data_apikey.
    destruct (params !! "data") as [data|]; [|reflexivity].
    unfold send, http, bind, exchange, finish. cbn [self net wire].
    destruct (serve _ _) as [[r|msg] n]; cbn; [|reflexivity].
    unfold lift, read_response.
    by destruct (check_status r).
  - destruct (String.eqb verb "GET"); [|reflexivity].
    unfold send, http, bind, update_apikey_header, get_self,
      exchange, finish.
    cbn [self net wire].
    destruct (serve _ _) as [[r|msg] n]; cbn; [|reflexivity].
    unfold lift, read_response.
    by destruct (check_status r).
Qed.

Lemma wire_exchange (w : world remote) rq :
  wire (exchange w rq) = (wire w ++ [(rq, fst (serve (net w) rq))])%list.
Proof. reflexivity. Qed.

Lemma str_join_strings sep names :
  ∃ t, str_join sep (map PyStr names) = Ok t.
Proof.
  induction names as [|s [|s' rest] IH]; cbn; eauto.
  destruct IH as [t Ht]. cbn in Ht. rewrite Ht. eauto.
Qed.

Lemma str_join_raises sep items e : str_join sep items = Raise e → e = TypeError.
Proof.
  induction items as [|[| | | |s| |] rest IH] in e |- *; cbn; try congruence.
  destruct rest as [|x rest']; [congruence|].
  destruct (str_join sep (x :: rest')); [congruence|].
  intros [= <-]. by apply IH.
Qed.

Lemma py_iter_raises v e : py_iter v = Raise e → e = TypeError.
Proof. destruct v; cbn; congruence. Qed.

(** Building the URL fails only in [join], on a [fields] argument that is
    not a sequence of strings. *)
Lemma build_url_raises base api endpoint rid params e :
  build_url base api endpoint rid params = Raise e → e = TypeError.
Proof.
  unfold build_url.
  destruct (ident_truthy rid); [|done].
  destruct (params !! "fields") as [fields|]; [|done].
  destruct (py_iter fields) as [items|e'] eqn:Hiter.
  - destruct (str_join "," items) as [t|e'] eqn:Hjoin; [done|].
    intros [= <-]. by eapply str_join_raises.
  - intros [= <-]. by eapply py_iter_raises.
Qed.

Lemma build_url_typed_fields base api endpoint rid (params : gmap string pyval) :
  (∀ fields, params !! "fields" = Some fields → ∃ names, fields = PyList (map PyStr names)) →
  ∃ url, build_url base api endpoint rid params = Ok url.
Proof.
  intros Hfields. unfold build_url.
  destruct (ident_truthy rid); [|eauto].
  destruct (params !! "fields") as [fields|]; [|eauto].
  destruct (Hfields fields eq_refl) as [names ->]. cbn.
  destruct (str_join_strings "," names) as [t ->]. eauto.
Qed.



(** The three ways a run of [request] can go: it stops before anything is
    sent, with an error that is none of the typed kinds; it stops on the
    missing [data] of a POST, the headers already stamped; or it makes one
    exchange and ends on what came back. *)
Lemma request_cases api endpoint verb rid params (w : world remote) :
  (∃ e, request api endpoint verb rid params w = (Raise e, w) ∧ typed_error e = false)
  ∨ request api endpoint verb rid params w =
      (Raise (KeyError "data"),
       {| self := stamped (self w); net := net w; wire := wire w |})
  ∨ (∃ rq, request api endpoint verb rid params w =
             (finish (fst (serve (net w) rq)), exchange w rq)).
Proof.
  rewrite request_run.
  destruct (build_url _ _ _ _ _) as [url|e] eqn:Hurl.
  - destruct (String.eqb verb "POST").
    + destruct (params !! "data"); [right; right; eauto | right; left; done].
    + destruct (String.eqb verb "GET"); [right; right; eauto |].
      left. eexists. split; done.
  - left. exists e. split; [done|].
    by rewrite (build_url_raises _ _ _ _ _ _ Hurl).
Qed.

Lemma no_self_append {A} (l : list A) (x : A) : l ≠ (l ++ [x])%list.
Proof.
  intros H. apply (f_equal length) in H. rewrite length_app in H. cbn in H. lia.
Qed.

(** When the last exchange of a run of [request] brought a response, the run
    ends on the reading of that response. *)
Lemma request_answered api endpoint verb rid params (w : world remote) rq r :
  wire (snd (request api endpoint verb rid params w))
    = (wire w ++ [(rq, Responded r)])%list →
  fst (request api endpoint verb rid params w) = read_response r.
Proof.
  intros Hwire.
  destruct (request_cases api endpoint verb rid params w)
    as [(e & Hrun & _) | [Hrun | (rq' & Hrun)]];
    rewrite Hrun in Hwire |- *; cbn [fst snd wire] in *.
  - by apply no_self_append in Hwire.
  - by apply no_self_append in Hwire.
  - rewrite wire_exchange in Hwire. apply app_inv_head in Hwire.
    injection Hwire as _ Hout. by rewrite Hout.
Qed.

Lemma check_status_unlisted r :
  status_code r ∉ [200; 400; 401; 404; 405; 413; 429; 500; 503] →
  check_status r = Raise (ChemSpiPyServerError (text r)).
Proof.
  intros Hnot. unfold check_status.
  repeat lazymatch goal with
  | |- context [ (status_code r =? ?k) ] =>
      destruct (Z.eqb_spec (status_code r) k) as [Heq|_];
      [exfalso; apply Hnot; rewrite Heq; set_solver|]
  end.
  reflexivity.
Qed.

Lemma truthy_py_and x y : truthy (py_and x y) = truthy x && truthy y.
Proof. unfold py_and. by destruct (truthy x) eqn:Hx. Qed.

(** A POST carrying [data] and no record identifier: one exchange. *)
Lemma post_data_run api endpoint data (w : world remote) :
  request api endpoint "POST" IdNone {["data" := data]} w =
  let rq := Post (api_url (self w) ++ "/" ++ api ++ "/" ++ endpoint) data
              (http_headers (stamped (self w))) in
  (finish (fst (serve (net w) rq)), exchange w rq).
Proof. rewrite request_run. cbn. by rewrite lookup_singleton_eq. Qed.

Lemma snd_bind_lift {A B} (m : Py A) (f : A → result B) (w : world remote) :
  snd (bind m (λ x, lift (f x)) w) = snd (m w).
Proof. unfold bind, lift. by destruct (m w) as [[a|e] w']. Qed.

(** What a run of [request] does to the client object. *)
Lemma request_client api endpoint verb rid params (w : world remote) :
  api_url (self (snd (request api endpoint verb rid params w))) = api_url (self w)
  ∧ apikey (self (snd (request api endpoint verb rid params w))) = apikey (self w).
Proof.
  rewrite request_run.
  destruct (build_url _ _ _ _ _); [|done].
  destruct (String.eqb verb "POST"); [by destruct (params !! "data")|].
  by destruct (String.eqb verb "GET").
Qed.

Lemma request_headers api endpoint verb rid params (w : world remote) :
  http_headers (self (snd (request api endpoint verb rid params w))) =
  match build_url (api_url (self w)) api endpoint rid params with
  | Ok _ =>
      if String.eqb verb "POST" || String.eqb verb "GET"
      then <["apikey" := apikey (self w)]> (http_headers (self w))
      else http_headers (self w)
  | Raise _ => http_headers (self w)
  end.
Proof.
  rewrite request_run.
  destruct (build_url _ _ _ _ _); [|done].
  destruct (String.eqb verb "POST"); [by destruct (params !! "data")|].
  by destruct (String.eqb verb "GET").
Qed.

(** *** Retrieval of results *)

(** C1.  [get_async_search_result_part] never reaches the remote service:
    for every transaction id, start and count (so also at start 2, count 2,
    and at count -1), and in every state of the session, its call of
    [request] leaves out [http_verb], and the method ends on a [TypeError]
    with the state untouched, instead of returning record handles.
    [get_async_search_result] does the same. *)
Theorem get_async_search_result_part_raises_TypeError rid start count (w : world remote) :
  get_async_search_result_part rid start count w = (Raise TypeError, w)
  ∧ get_async_search_result rid w = (Raise TypeError, w).
Proof. split; reflexivity. Qed.

(** *** Status codes *)

(** C2.  When the exchange of a run of [request] brought a response with
    status 500 or 503, the run raises [ChemSpiPyAuthError] (with the text of
    an internal server error, respectively of an unavailable service), not
    [ChemSpiPyServerError]. *)
Theorem request_500_503_raises_AuthError api endpoint verb rid params (w : world remote) rq r :
  wire (snd (request api endpoint verb rid params w))
    = (wire w ++ [(rq, Responded r)])%list →
  status_code r = 500 ∨ status_code r = 503 →
  fst (request api endpoint verb rid params w) =
    Raise (ChemSpiPyAuthError
             (if status_code r =? 500 then "Internal Server Error. Wait and try again."
              else "Service Unavailable. Wait and try again."))
  ∧ ∀ msg, fst (request api endpoint verb rid params w) ≠ Raise (ChemSpiPyServerError msg).
Proof.
  intros Hwire Hcode. rewrite (request_answered _ _ _ _ _ _ _ _ Hwire).
  unfold read_response, check_status.
  destruct Hcode as [-> | ->]; cbn; split; congruence.
Qed.

(** C6, as the code has it.  When the exchange of a run of [request] brought
    a response with status 400, 401, 404, 405, 413 or 429, the run raises
    [ChemSpiPyAuthError]; for 401 the message is the one that tells of a
    failed authorization.  Any other status from 400 to 499 raises
    [ChemSpiPyServerError] with the text of the response. *)
Theorem request_listed_4xx_raises_AuthError api endpoint verb rid params (w : world remote) rq r :
  wire (snd (request api endpoint verb rid params w))
    = (wire w ++ [(rq, Responded r)])%list →
  400 ≤ status_code r ≤ 499 →
  if bool_decide (status_code r ∈ [400; 401; 404; 405; 413; 429]) then
    (∃ msg, fst (request api endpoint verb rid params w) = Raise (ChemSpiPyAuthError msg))
    ∧ (status_code r = 401 →
       fst (request api endpoint verb rid params w) =
         Raise (ChemSpiPyAuthError "Unauthorized. Check you have supplied the correct API key and that you have sent it as an HTTP Header called 'apikey'."))
  else
    fst (request api endpoint verb rid params w) = Raise (ChemSpiPyServerError (text r)).
Proof.
  intros Hwire Hrange. rewrite (request_answered _ _ _ _ _ _ _ _ Hwire).
  unfold read_response.
  case_bool_decide as Hin.
  - unfold check_status.
    repeat (apply elem_of_cons in Hin as [Heq | Hin];
            [rewrite Heq; cbn; split; [eauto | done] |]).
    by apply elem_of_nil in Hin.
  - rewrite check_status_unlisted; [done|].
    intros Hin'. apply Hin. clear Hin.
    repeat (apply elem_of_cons in Hin' as [Heq | Hin'];
            [first [lia | rewrite Heq, !elem_of_cons; tauto] |]).
    by apply elem_of_nil in Hin'.
Qed.

(** C7.  When the exchange of a run of [request] brought a response with
    status 200 whose text [json.loads] cannot decode, the run raises
    [ChemSpiPyParseError]: it returns no value and raises no other kind. *)
Theorem request_undecodable_raises_ParseError api endpoint verb rid params (w : world remote)
    rq r msg :
  wire (snd (request api endpoint verb rid params w))
    = (wire w ++ [(rq, Responded r)])%list →
  status_code r = 200 →
  json_loads (text r) = JSONDecodeError msg →
  fst (request api endpoint verb rid params w) =
    Raise (ChemSpiPyParseError ("Unable to parse json response: " ++ msg)).
Proof.
  intros Hwire Hcode Hbody. rewrite (request_answered _ _ _ _ _ _ _ _ Hwire).
  unfold read_response, check_status, decode.
  by rewrite Hcode, Hbody.
Qed.


(** *** The shared client *)

(** C5, as the code has it.  A run of [request] changes neither the base URL
    nor the API key of the client.  Its session headers are written: once
    the URL is built, a POST or a GET sets the header [apikey] to the API
    key of the client before anything is sent; every other run leaves the
    headers as they were.  A second run with the same arguments finds that
    entry in place and leaves the headers as the first run left them. *)
Theorem request_frame api endpoint verb rid params (w : world remote) :
  let w' := snd (request api endpoint verb rid params w) in
  api_url (self w') = api_url (self w)
  ∧ apikey (self w') = apikey (self w)
  ∧ http_headers (self w') =
      match build_url (api_url (self w)) api endpoint rid params with
      | Ok _ =>
          if String.eqb verb "POST" || String.eqb verb "GET"
          then <["apikey" := apikey (self w)]> (http_headers (self w))
          else http_headers (self w)
      | Raise _ => http_headers (self w)
      end
  ∧ http_headers (self (snd (request api endpoint verb rid params w')))
      = http_headers (self w').
Proof.
  cbn zeta.
  destruct (request_client api endpoint verb rid params w) as [Hurl Hkey].
  repeat split; [done | done | apply request_headers |].
  rewrite (request_headers _ _ _ _ _ (snd _)), Hurl, Hkey, request_headers.
  destruct (build_url _ _ _ _ _); [|done].
  destruct (String.eqb verb "POST" || String.eqb verb "GET"); [|done].
  by rewrite insert_insert_eq.
Qed.

(** *** Polling *)

(** C4.  A call of [get_async_search_status] makes exactly one exchange with
    the remote service, a GET of the status of the transaction, whatever
    comes back; and when the service answers 200 with one of the nine
    status values, the call returns that value. *)
Theorem get_async_search_status_one_round_trip rid (w : world remote) :
  let res := get_async_search_status rid w in
  let url :=
    if ident_truthy rid
    then api_url (self w) ++ "/" ++ "filter" ++ "/" ++ ident_str rid ++ "/" ++ "status"
    else api_url (self w) ++ "/" ++ "filter" ++ "/" ++ "status" in
  let rq := Get url (<["apikey" := apikey (self w)]> (http_headers (self w))) in
  wire (snd res) = (wire w ++ [(rq, fst (serve (net w) rq))])%list
  ∧ net (snd res) = snd (serve (net w) rq)
  ∧ ∀ s r,
      fst (serve (net w) rq) = Responded r →
      status_code r = 200 →
      json_loads (text r) = Decoded (PyStr (status_name s)) →
      fst res = Ok (PyStr (status_name s)).
Proof.
  cbn zeta. unfold get_async_search_status, call_request.
  rewrite request_run. unfold build_url. rewrite lookup_empty.
  destruct (ident_truthy rid); cbn [String.eqb Ascii.eqb Bool.eqb fst snd];
    (repeat split; [done..|]);
    intros s r Hout Hcode Hbody; cbn [stamped http_headers] in *; rewrite Hout;
    unfold finish, read_response, check_status, decode;
    by rewrite Hcode, Hbody.
Qed.

(** *** Searches *)

Lemma Results_init_snd (submission : Py pyval) flag (w : world remote) :
  snd (Results_init submission flag w) = snd (submission w).
Proof.
  unfold Results_init. destruct (submission w) as [[rid|e] w']; [done|].
  by destruct flag.
Qed.

Lemma search_run query order direction flag (w : world remote) :
  search query order direction flag w =
  Results_init
    (if truthy (default PyNone order) && truthy (default (PyStr ASCENDING) direction)
     then async_simple_search_ordered query (Some (default PyNone order))
            (Some (default (PyStr ASCENDING) direction))
     else async_simple_search query)
    (default false flag) w.
Proof.
  unfold search. rewrite truthy_py_and.
  by destruct (truthy (default PyNone order)
               && truthy (default (PyStr ASCENDING) direction)).
Qed.

(** C3, as the code has it.  Without a [raise_errors] argument [search]
    builds the session with [raise_errors=False], as with an explicit
    [False].  When the submission fails, the default search returns a
    session that holds the exception and has no transaction id, where the
    same search under [raise_errors=True] raises that exception at the call
    site.  And when a poll of a session fails, the session built by
    default stores the exception and the poll returns the sentinel, where
    the session built under [raise_errors=True] raises it. *)
Theorem search_default_stores_exception query order direction (w : world remote) :
  let o := default PyNone order in
  let d := default (PyStr ASCENDING) direction in
  let submission :=
    if truthy o && truthy d
    then async_simple_search_ordered query (Some o) (Some d)
    else async_simple_search query in
  search query order direction None w = search query order direction (Some false) w
  ∧ (∀ e w1,
       submission w = (Raise e, w1) →
       search query order direction None w =
         (Ok {| transaction_id := None; status := Unknown; count := None;
                message := None; exception := Some e; raise_errors := false |}, w1)
       ∧ search query order direction (Some true) w = (Raise e, w1))
  ∧ (∀ session w1,
       search query order direction None w = (Ok session, w1) →
       raise_errors session = false
       ∧ ∀ e w2,
           get_async_search_status_and_count (rid_of session) w1 = (Raise e, w2) →
           ∃ session',
             Results_status session w1 = (Ok (session', None), w2)
             ∧ exception session' = Some e
             ∧ transaction_id session' = transaction_id session)
  ∧ (∀ session w1 e w2,
       search query order direction (Some true) w = (Ok session, w1) →
       get_async_search_status_and_count (rid_of session) w1 = (Raise e, w2) →
       Results_status session w1 = (Raise e, w2)).
Proof.
  cbn zeta. rewrite !search_run. cbn [from_option id].
  match goal with |- context [Results_init ?m false w] => set (submission := m) end.
  unfold Results_init.
  split; [done|]. split; [|split].
  - intros e w1 ->. done.
  - intros session w1.
    destruct (submission w) as [[rid|e0] w0]; intros [= <- <-]; cbn [raise_errors];
      (split; [done|]); intros e w2 Hpoll; unfold Results_status;
      rewrite Hpoll; cbn [raise_errors]; eauto.
  - intros session w1 e w2.
    destruct (submission w) as [[rid|e0] w0]; [|done]. intros [= <- <-] Hpoll.
    unfold Results_status. by rewrite Hpoll.
Qed.

(** C8, as the code has it.  [search] builds the session around one
    submission, with the [raise_errors] flag it was given.  When the order
    and the direction (which defaults to ascending) are both truthy the
    submission is the ordered one and posts the name, [orderBy] and
    [orderDirection]; otherwise (no order, an empty one, or a falsy
    direction) it is the plain one and posts the name alone.  A session is
    returned unless the submission fails under [raise_errors=True]. *)
Theorem search_variant query order direction flag (w : world remote) :
  let o := default PyNone order in
  let d := default (PyStr ASCENDING) direction in
  let ordered := truthy o && truthy d in
  let body :=
    if ordered
    then PyDict [("name", query); ("orderBy", o); ("orderDirection", d)]
    else PyDict [("name", query)] in
  let rq := Post (api_url (self w) ++ "/" ++ "filter" ++ "/" ++ "name") body
              (<["apikey" := apikey (self w)]> (http_headers (self w))) in
  let res := search query order direction flag w in
  res = Results_init
          (if ordered then async_simple_search_ordered query (Some o) (Some d)
           else async_simple_search query)
          (default false flag) w
  ∧ wire (snd res) = (wire w ++ [(rq, fst (serve (net w) rq))])%list
  ∧ match fst res with
    | Ok session => raise_errors session = default false flag
    | Raise _ => flag = Some true
    end.
Proof.
  cbn zeta. unfold search. rewrite truthy_py_and.
  destruct (truthy (default PyNone order) && truthy (default (PyStr ASCENDING) direction)).
  all: split; [done|]; split.
  all: try (rewrite Results_init_snd;
            unfold async_simple_search_ordered, async_simple_search, call_request;
            cbn [default]; by rewrite post_data_run).
  all: unfold Results_init;
    first [destruct (async_simple_search_ordered _ _ _ w) as [[rid|e] w1]
          |destruct (async_simple_search _ w) as [[rid|e] w1]];
    [done|]; by destruct flag as [[|]|].
Qed.

(** C9.  With a truthy [datasources] argument (so with every non-empty
    list), [simple_search_by_formula] and [simple_search_by_mass] end on the
    [NameError] of the unbound name [data], and the state is left as it
    was: nothing is sent.  With [datasources] left out they post a body that
    holds the formula alone, respectively the mass and the range alone. *)
Theorem datasources_raises_NameError (w : world remote) :
  (∀ formula ds, truthy ds = true →
     simple_search_by_formula formula (Some ds) w
       = (Raise (NameError "data"), w))
  ∧ (∀ mass mass_range ds, truthy ds = true →
       simple_search_by_mass mass mass_range (Some ds) w
         = (Raise (NameError "data"), w))
  ∧ (∀ formula,
       let rq := Post (api_url (self w) ++ "/" ++ "filter" ++ "/" ++ "formula")
                   (PyDict [("formula", formula)])
                   (<["apikey" := apikey (self w)]> (http_headers (self w))) in
       wire (snd (simple_search_by_formula formula None w))
         = (wire w ++ [(rq, fst (serve (net w) rq))])%list)
  ∧ (∀ mass mass_range,
       let rq := Post (api_url (self w) ++ "/" ++ "filter" ++ "/" ++ "mass")
                   (PyDict [("mass", mass); ("range", mass_range)])
                   (<["apikey" := apikey (self w)]> (http_headers (self w))) in
       wire (snd (simple_search_by_mass mass mass_range None w))
         = (wire w ++ [(rq, fst (serve (net w) rq))])%list).
Proof.
  repeat split.
  - intros formula ds Hds. unfold simple_search_by_formula, bind, raise.
    cbn [from_option id]. by rewrite Hds.
  - intros mass mass_range ds Hds. unfold simple_search_by_mass, bind, raise.
    cbn [from_option id]. by rewrite Hds.
  - intros formula. cbn zeta. unfold simple_search_by_formula.
    cbn [from_option truthy]. unfold bind at 1, ret.
    rewrite snd_bind_lift. unfold call_request. by rewrite post_data_run.
  - intros mass mass_range. cbn zeta. unfold simple_search_by_mass.
    cbn [from_option truthy]. unfold bind at 1, ret.
    rewrite snd_bind_lift. unfold call_request. by rewrite post_data_run.
Qed.

(** ** Further properties of the request layer *)

(** A run of [request] with the verb GET. *)
Lemma get_run api endpoint rid params (w : world remote) :
  request api endpoint "GET" rid params w =
  match build_url (api_url (self w)) api endpoint rid params with
  | Ok url =>
      let rq := Get url (<["apikey" := apikey (self w)]> (http_headers (self w))) in
      (finish (fst (serve (net w) rq)), exchange w rq)
  | Raise e => (Raise e, w)
  end.
Proof. rewrite request_run. by destruct (build_url _ _ _ _ _). Qed.

(** When a run of [request] ends with one more exchange on the wire, it ends
    on what [request] makes of the outcome of that exchange. *)
Lemma request_exchanged api endpoint verb rid params (w : world remote) rq out :
  wire (snd (request api endpoint verb rid params w)) = (wire w ++ [(rq, out)])%list →
  fst (request api endpoint verb rid params w) = finish out
  ∧ out = fst (serve (net w) rq)
  ∧ headers_of rq = <["apikey" := apikey (self w)]> (http_headers (self w)).
Proof.
  intros Hwire. rewrite request_run in Hwire |- *.
  destruct (build_url _ _ _ _ _) as [url|e]; cbn [fst snd] in *;
    [|by apply no_self_append in Hwire].
  destruct (String.eqb verb "POST").
  - destruct (params !! "data") as [data|]; cbn [fst snd wire] in *;
      [|by apply no_self_append in Hwire].
    rewrite wire_exchange in Hwire. apply app_inv_head in Hwire.
    injection Hwire as <- <-. done.
  - destruct (String.eqb verb "GET"); cbn [fst snd] in *;
      [|by apply no_self_append in Hwire].
    rewrite wire_exchange in Hwire. apply app_inv_head in Hwire.
    injection Hwire as <- <-. done.
Qed.

Lemma check_status_ok r : check_status r = Ok tt ↔ status_code r = 200.
Proof.
  unfold check_status. split.
  - intros H.
    destruct (Z.eqb_spec (status_code r) 200) as [Heq|_]; [done|].
    repeat lazymatch type of H with
    | (if ?b then _ else _) = _ => destruct b; [discriminate H|]
    end.
    discriminate H.
  - by intros ->.
Qed.

Lemma check_status_raises r e :
  check_status r = Raise e →
  status_code r ≠ 200
  ∧ ((∃ msg, e = ChemSpiPyAuthError msg) ∨ e = ChemSpiPyServerError (text r)).
Proof.
  unfold check_status.
  destruct (Z.eqb_spec (status_code r) 200) as [Heq|Hne]; [done|].
  intros H. split; [done|].
  repeat lazymatch type of H with
  | (if ?b then _ else _) = _ => destruct b; [injection H as <-; left; eauto|]
  end.
  injection H as <-. by right.
Qed.

Lemma read_response_ok r v :
  read_response r = Ok v ↔ status_code r = 200 ∧ json_loads (text r) = Decoded v.
Proof.
  unfold read_response, decode. split.
  - destruct (check_status r) as [[]|e] eqn:Hst; [|done].
    apply check_status_ok in Hst.
    destruct (json_loads (text r)); [|done]. by intros [= ->].
  - intros [Hst Hbody]. apply check_status_ok in Hst. by rewrite Hst, Hbody.
Qed.

(** X1.  A run of [request] makes at most one exchange with the remote
    service: either the wire and the service are as before, or one exchange
    has been added after those already on the wire and the service has
    moved by that one request.  Nothing is sent twice. *)
Theorem request_at_most_one_exchange api endpoint verb rid params (w : world remote) :
  let w' := snd (request api endpoint verb rid params w) in
  (wire w' = wire w ∧ net w' = net w)
  ∨ ∃ rq, wire w' = (wire w ++ [(rq, fst (serve (net w) rq))])%list
          ∧ net w' = snd (serve (net w) rq).
Proof.
  cbn zeta.
  destruct (request_cases api endpoint verb rid params w)
    as [(e & -> & _) | [-> | (rq & ->)]]; [by left | by left | right].
  exists rq. done.
Qed.

(** X2.  When [request] returns a value, the verb was GET or POST, exactly
    one exchange was made, the service answered it with status 200, and the
    value is the decoding of the text of that answer. *)
Theorem request_returns_only_200 api endpoint verb rid params (w : world remote) v :
  fst (request api endpoint verb rid params w) = Ok v →
  (verb = "GET" ∨ verb = "POST")
  ∧ ∃ rq r,
      wire (snd (request api endpoint verb rid params w))
        = (wire w ++ [(rq, Responded r)])%list
      ∧ status_code r = 200
      ∧ json_loads (text r) = Decoded v.
Proof.
  rewrite request_run.
  destruct (build_url _ _ _ _ _) as [url|e]; [|done].
  destruct (String.eqb_spec verb "POST") as [->|_].
  - destruct (params !! "data") as [data|]; [|done]. cbn [fst snd].
    intros Hok. split; [by right|].
    destruct (fst (serve _ _)) as [r|msg] eqn:Hout; [|done].
    apply read_response_ok in Hok as [Hst Hbody].
    eexists _, r. rewrite wire_exchange, Hout. done.
  - destruct (String.eqb_spec verb "GET") as [->|_]; [|done]. cbn [fst snd].
    intros Hok. split; [by left|].
    destruct (fst (serve _ _)) as [r|msg] eqn:Hout; [|done].
    apply read_response_ok in Hok as [Hst Hbody].
    eexists _, r. rewrite wire_exchange, Hout. done.
Qed.

(** X3.  When the exchange of a run of [request] ended in a
    [requests.RequestException], the run raises the base kind
    [ChemSpiPyError] with the text of that exception. *)
Theorem request_network_failure api endpoint verb rid params (w : world remote) rq msg :
  wire (snd (request api endpoint verb rid params w))
    = (wire w ++ [(rq, RequestException msg)])%list →
  fst (request api endpoint verb rid params w) = Raise (ChemSpiPyError msg).
Proof. intros Hwire. by destruct (request_exchanged _ _ _ _ _ _ _ _ Hwire) as (-> & _). Qed.

(** X5.  When the exchange of a run of [request] brought a response whose
    status is not 200, the run raises [ChemSpiPyAuthError] or
    [ChemSpiPyServerError] and the text is never decoded; a status that is
    none of 200, 400, 401, 404, 405, 413, 429, 500 and 503 (so also 201,
    204 or 502) raises [ChemSpiPyServerError] with the text of the
    response. *)
Theorem request_non_200_raises api endpoint verb rid params (w : world remote) rq r :
  wire (snd (request api endpoint verb rid params w))
    = (wire w ++ [(rq, Responded r)])%list →
  status_code r ≠ 200 →
  ((∃ msg, fst (request api endpoint verb rid params w) = Raise (ChemSpiPyAuthError msg))
   ∨ fst (request api endpoint verb rid params w) = Raise (ChemSpiPyServerError (text r)))
  ∧ (status_code r ∉ [400; 401; 404; 405; 413; 429; 500; 503] →
     fst (request api endpoint verb rid params w) = Raise (ChemSpiPyServerError (text r))).
Proof.
  intros Hwire Hcode.
  destruct (request_exchanged _ _ _ _ _ _ _ _ Hwire) as (-> & _). cbn [finish].
  unfold read_response. split.
  - destruct (check_status r) as [[]|e] eqn:Hst.
    + by apply check_status_ok in Hst.
    + apply check_status_raises in Hst as [_ [[msg ->] | ->]]; eauto.
  - intros Hnot. rewrite check_status_unlisted; [done|].
    intros Hin. apply elem_of_cons in Hin as [Heq | Hin]; done.
Qed.

(** X6.  A POST never carries the record identifier: whatever
    [record_id] and [fields] are (the latter a list of strings when
    given), the request on the wire goes to the URL made of the base, the
    API and the endpoint alone, with [data] as its JSON body. *)
Theorem post_ignores_record_id api endpoint rid params data (w : world remote) :
  params !! "data" = Some data →
  (∀ fields, params !! "fields" = Some fields → ∃ names, fields = PyList (map PyStr names)) →
  let rq := Post (api_url (self w) ++ "/" ++ api ++ "/" ++ endpoint) data
              (<["apikey" := apikey (self w)]> (http_headers (self w))) in
  wire (snd (request api endpoint "POST" rid params w))
    = (wire w ++ [(rq, fst (serve (net w) rq))])%list.
Proof.
  intros Hdata Hfields. cbn zeta. rewrite request_run.
  destruct (build_url_typed_fields (api_url (self w)) api endpoint rid params Hfields)
    as [url ->].
  cbn. by rewrite Hdata.
Qed.


(** X8.  Every request a run of [request] puts on the wire carries the API
    key of the client in its [apikey] header, and the other headers of the
    session as they were before the call. *)
Theorem request_sends_apikey api endpoint verb rid params (w : world remote) rq out :
  wire (snd (request api endpoint verb rid params w)) = (wire w ++ [(rq, out)])%list →
  headers_of rq !! "apikey" = Some (apikey (self w))
  ∧ ∀ name, name ≠ "apikey" → headers_of rq !! name = http_headers (self w) !! name.
Proof.
  intros Hwire. destruct (request_exchanged _ _ _ _ _ _ _ _ Hwire) as (_ & _ & ->).
  split; [apply lookup_insert_eq|].
  intros name Hne. by apply lookup_insert_ne.
Qed.

(** X20.  A typed error kind comes only from an answer of the service: when
    [request] raises [ChemSpiPyAuthError], [ChemSpiPyServerError] or
    [ChemSpiPyParseError], one exchange was made and it brought a
    response. *)
Theorem typed_error_after_response api endpoint verb rid params (w : world remote) e :
  fst (request api endpoint verb rid params w) = Raise e →
  typed_error e = true →
  ∃ rq r, wire (snd (request api endpoint verb rid params w))
            = (wire w ++ [(rq, Responded r)])%list.
Proof.
  destruct (request_cases api endpoint verb rid params w)
    as [(e' & -> & Hne) | [-> | (rq & ->)]]; cbn [fst snd].
  - intros [= <-]. congruence.
  - by intros [= <-].
  - rewrite wire_exchange.
    destruct (fst (serve (net w) rq)) as [r|msg]; cbn [finish]; [eauto|].
    by intros [= <-].
Qed.

(** ** Properties of the API methods *)

Lemma fst_bind_lift {A B} (m : Py A) (f : A → result B) (w : world remote) :
  fst (bind m (λ x, lift (f x)) w) =
  match fst (m w) with
  | Ok a => f a
  | Raise e => Raise e
  end.
Proof. unfold bind, lift. by destruct (m w) as [[a|e] w']. Qed.

(** [join] on a list of strings is the concatenation with the separator. *)
Lemma str_join_concat sep names :
  str_join sep (map PyStr names) = Ok (String.concat sep names).
Proof.
  induction names as [|s [|s' rest] IH]; [done..|].
  cbn in IH |- *. by rewrite IH.
Qed.

Lemma get_record_mol_run csid calc3d (w : world remote) :
  get_record_mol csid calc3d w =
  bind (request "records" "details" "GET" csid
          {["fields" := PyList [PyStr (if default false calc3d then "mol3D" else "mol2D")]]})
       (λ response, lift (first_field response)) w.
Proof.
  unfold get_record_mol, call_request, bind, lift, first_field.
  destruct calc3d as [[|]|]; cbn [from_option id Bool.eqb];
    destruct (request _ _ _ _ _ w) as [[v|e] w']; try done;
    destruct (py_keys v) as [keys|e]; try done;
    by destruct (skip_id None keys).
Qed.

Lemma skip_id_first key (pre : list (string * pyval)) k v post :
  Forall (λ x, fst x = "id") pre → k ≠ "id" →
  skip_id key (map fst (pre ++ (k, v) :: post)) = Some k
  ∧ dict_get k (pre ++ (k, v) :: post) = Some v.
Proof.
  intros Hpre Hk.
  induction Hpre as [|[k0 v0] pre Hk0 _ IH] in key |- *;
    cbn [app map fst skip_id dict_get].
  - apply String.eqb_neq in Hk. rewrite Hk, String.eqb_refl. done.
  - cbn [fst] in Hk0. subst k0. rewrite String.eqb_refl. cbn [negb].
    destruct (String.eqb_spec "id" k) as [<-|_]; [done|]. apply IH.
Qed.

Lemma wrap_compounds_ok v l : wrap_compounds v = Ok l → l = [].
Proof.
  unfold wrap_compounds. destruct (py_iter v) as [[|el rest]|e]; cbn; congruence.
Qed.

(** X9.  [get_extended_compound_info] with a truthy CSID and a list of
    field names makes one GET of the details of that record, the names
    joined by commas in the [fields] query parameter; keyword arguments
    other than [fields] are dropped.  A 200 answer is returned decoded. *)
Theorem get_extended_compound_info_url csid params names (w : world remote) :
  ident_truthy csid = true →
  params !! "fields" = Some (PyList (map PyStr names)) →
  let url := (api_url (self w) ++ "/" ++ "records" ++ "/" ++ ident_str csid ++ "/" ++ "details")
             ++ "?fields=" ++ String.concat "," names in
  let rq := Get url (<["apikey" := apikey (self w)]> (http_headers (self w))) in
  wire (snd (get_extended_compound_info csid params w))
    = (wire w ++ [(rq, fst (serve (net w) rq))])%list
  ∧ ∀ r v,
      fst (serve (net w) rq) = Responded r →
      status_code r = 200 →
      json_loads (text r) = Decoded v →
      fst (get_extended_compound_info csid params w) = Ok v.
Proof.
  intros Hcsid Hfields. cbn zeta.
  unfold get_extended_compound_info, call_request. rewrite Hfields, get_run.
  unfold build_url. rewrite Hcsid, lookup_singleton_eq. cbn [py_iter].
  rewrite str_join_concat. cbn [fst snd]. split; [done|].
  intros r v -> Hst Hbody. cbn [finish]. by apply read_response_ok.
Qed.

(** X10.  [get_extended_compound_info] without a [fields] keyword ends on
    [KeyError] with the state untouched; and with a falsy CSID ([None], 0
    or the empty string) the GET goes to the URL without a record
    identifier and without the [fields] parameter. *)
Theorem get_extended_compound_info_edges csid params (w : world remote) :
  (params !! "fields" = None →
   get_extended_compound_info csid params w = (Raise (KeyError "fields"), w))
  ∧ (∀ fields,
       params !! "fields" = Some fields →
       ident_truthy csid = false →
       let rq := Get (api_url (self w) ++ "/" ++ "records" ++ "/" ++ "details")
                   (<["apikey" := apikey (self w)]> (http_headers (self w))) in
       wire (snd (get_extended_compound_info csid params w))
         = (wire w ++ [(rq, fst (serve (net w) rq))])%list).
Proof.
  unfold get_extended_compound_info, call_request. split.
  - by intros ->.
  - intros fields -> Hcsid. cbn zeta. rewrite get_run.
    unfold build_url. by rewrite Hcsid.
Qed.

(** X11.  A [fields] argument that is one string of ASCII text and not a
    list of strings is taken apart by [join]: the query parameter is the
    characters of the string, separated by commas. *)
Theorem get_extended_compound_info_string_fields csid params s (w : world remote) :
  ident_truthy csid = true →
  params !! "fields" = Some (PyStr s) →
  ascii_only s = true →
  let url := (api_url (self w) ++ "/" ++ "records" ++ "/" ++ ident_str csid ++ "/" ++ "details")
             ++ "?fields="
             ++ String.concat "," (map (λ c, String c EmptyString) (list_ascii_of_string s)) in
  let rq := Get url (<["apikey" := apikey (self w)]> (http_headers (self w))) in
  wire (snd (get_extended_compound_info csid params w))
    = (wire w ++ [(rq, fst (serve (net w) rq))])%list.
Proof.
  intros Hcsid Hfields _. cbn zeta.
  unfold get_extended_compound_info, call_request. rewrite Hfields, get_run.
  unfold build_url. rewrite Hcsid, lookup_singleton_eq. cbn [py_iter].
  rewrite <- (map_map (λ c, String c EmptyString) PyStr), str_join_concat. done.
Qed.

(** X12.  [get_record_mol] with a truthy CSID makes one GET of the details
    of that record, asking for the field [mol2D], or for [mol3D] under
    [calc3d=True]. *)
Theorem get_record_mol_request csid calc3d (w : world remote) :
  ident_truthy csid = true →
  let url := (api_url (self w) ++ "/" ++ "records" ++ "/" ++ ident_str csid ++ "/" ++ "details")
             ++ "?fields=" ++ (if default false calc3d then "mol3D" else "mol2D") in
  let rq := Get url (<["apikey" := apikey (self w)]> (http_headers (self w))) in
  wire (snd (get_record_mol csid calc3d w))
    = (wire w ++ [(rq, fst (serve (net w) rq))])%list.
Proof.
  intros Hcsid. cbn zeta. rewrite get_record_mol_run, snd_bind_lift, get_run.
  unfold build_url. rewrite Hcsid, lookup_singleton_eq. done.
Qed.

(** X13.  When the service answers [get_record_mol] with status 200 and a
    JSON object, the method returns the value of the first key of the
    object that is not [id], wherever [id] comes in the object. *)
Theorem get_record_mol_first_field csid calc3d (w : world remote) rq r pre k v post :
  wire (snd (get_record_mol csid calc3d w)) = (wire w ++ [(rq, Responded r)])%list →
  status_code r = 200 →
  json_loads (text r) = Decoded (PyDict (pre ++ (k, v) :: post)) →
  Forall (λ x, fst x = "id") pre →
  k ≠ "id" →
  fst (get_record_mol csid calc3d w) = Ok v.
Proof.
  intros Hwire Hst Hbody Hpre Hk.
  rewrite get_record_mol_run in Hwire |- *.
  rewrite snd_bind_lift in Hwire. rewrite fst_bind_lift.
  rewrite (request_answered _ _ _ _ _ _ _ _ Hwire).
  rewrite (proj2 (read_response_ok _ _) (conj Hst Hbody)).
  unfold first_field, py_keys, py_pop.
  destruct (skip_id_first None pre k v post Hpre Hk) as [-> ->]. done.
Qed.

(** X14.  The edges of [get_record_mol] on a 200 answer: an empty JSON
    object leaves the loop variable unbound; an object that holds [id]
    alone gives back the identifier itself; and an answer that is a JSON
    array has no [keys]. *)
Theorem get_record_mol_edges csid calc3d (w : world remote) rq r :
  wire (snd (get_record_mol csid calc3d w)) = (wire w ++ [(rq, Responded r)])%list →
  status_code r = 200 →
  (json_loads (text r) = Decoded (PyDict []) →
   fst (get_record_mol csid calc3d w) = Raise (UnboundLocalError "key"))
  ∧ (∀ i, json_loads (text r) = Decoded (PyDict [("id", i)]) →
          fst (get_record_mol csid calc3d w) = Ok i)
  ∧ (∀ l, json_loads (text r) = Decoded (PyList l) →
          fst (get_record_mol csid calc3d w) = Raise (AttributeError "keys")).
Proof.
  intros Hwire Hst.
  rewrite get_record_mol_run in Hwire |- *.
  rewrite snd_bind_lift in Hwire. rewrite fst_bind_lift.
  rewrite (request_answered _ _ _ _ _ _ _ _ Hwire).
  repeat split.
  - intros Hbody. by rewrite (proj2 (read_response_ok _ _) (conj Hst Hbody)).
  - intros i Hbody. by rewrite (proj2 (read_response_ok _ _) (conj Hst Hbody)).
  - intros l Hbody. by rewrite (proj2 (read_response_ok _ _) (conj Hst Hbody)).
Qed.

(** X15.  [get_databases] makes one GET of the data sources, whatever comes
    back.  From a 200 answer that is a JSON object it returns the value
    under [dataSources], and ends on [KeyError] when the object has no such
    key. *)
Theorem get_databases_lookup (w : world remote) :
  let rq := Get (api_url (self w) ++ "/" ++ "lookups" ++ "/" ++ "datasources")
              (<["apikey" := apikey (self w)]> (http_headers (self w))) in
  wire (snd (get_databases w)) = (wire w ++ [(rq, fst (serve (net w) rq))])%list
  ∧ ∀ r d,
      fst (serve (net w) rq) = Responded r →
      status_code r = 200 →
      json_loads (text r) = Decoded (PyDict d) →
      (∀ x, dict_get "dataSources" d = Some x → fst (get_databases w) = Ok x)
      ∧ (dict_get "dataSources" d = None →
         fst (get_databases w) = Raise (KeyError "dataSources")).
Proof.
  cbn zeta. unfold get_databases, call_request.
  rewrite snd_bind_lift, fst_bind_lift, get_run. cbn [build_url ident_truthy fst snd].
  split; [done|].
  intros r d -> Hst Hbody. cbn [finish].
  rewrite (proj2 (read_response_ok _ _) (conj Hst Hbody)). cbn [py_getitem].
  split; [intros x ->|intros ->]; done.
Qed.

(** X16.  The methods that still call [request] with two positional
    arguments never reach the remote service: each ends on [TypeError] with
    the state untouched, whatever its argument. *)
Theorem two_argument_calls_raise_TypeError (w : world remote) :
  (∀ query, simple_search query w = (Raise TypeError, w))
  ∧ (∀ csid, get_compound_info csid w = (Raise TypeError, w))
  ∧ (∀ csid, get_original_mol csid w = (Raise TypeError, w))
  ∧ (∀ inchikey, get_csid_from_inchikey inchikey w = (Raise TypeError, w))
  ∧ (∀ inchikey, get_mol_from_inchikey inchikey w = (Raise TypeError, w))
  ∧ (∀ inchikey, get_inchi_from_inchikey inchikey w = (Raise TypeError, w))
  ∧ (∀ inchi, get_csid_from_inchi inchi w = (Raise TypeError, w))
  ∧ (∀ inchi, get_inchikey_from_inchi inchi w = (Raise TypeError, w))
  ∧ (∀ inchi, get_mol_from_inchi inchi w = (Raise TypeError, w)).
Proof. repeat split; intros; reflexivity. Qed.

(** X17.  The searches by formula and by mass can return the empty list
    only: the list comprehension reads [el.text] on every element of the
    decoded answer, so a 200 answer that is a non-empty JSON array ends on
    [AttributeError]. *)
Theorem filter_searches_return_empty (w : world remote) :
  (∀ formula datasources l,
     fst (simple_search_by_formula formula datasources w) = Ok l → l = [])
  ∧ (∀ mass mass_range datasources l,
       fst (simple_search_by_mass mass mass_range datasources w) = Ok l → l = [])
  ∧ (∀ formula rq r x rest,
       wire (snd (simple_search_by_formula formula None w))
         = (wire w ++ [(rq, Responded r)])%list →
       status_code r = 200 →
       json_loads (text r) = Decoded (PyList (x :: rest)) →
       fst (simple_search_by_formula formula None w) = Raise (AttributeError "text")).
Proof.
  repeat split.
  - intros formula datasources l. unfold simple_search_by_formula.
    destruct (truthy (default PyNone datasources)); [done|].
    unfold bind at 1, ret. rewrite fst_bind_lift.
    destruct (fst (call_request _ _ _ _ _ w)); [apply wrap_compounds_ok | done].
  - intros mass mass_range datasources l. unfold simple_search_by_mass.
    destruct (truthy (default PyNone datasources)); [done|].
    unfold bind at 1, ret. rewrite fst_bind_lift.
    destruct (fst (call_request _ _ _ _ _ w)); [apply wrap_compounds_ok | done].
  - intros formula rq r x rest. unfold simple_search_by_formula.
    cbn [from_option truthy]. unfold bind at 1 3, ret.
    rewrite snd_bind_lift, fst_bind_lift. unfold call_request.
    intros Hwire Hst Hbody.
    rewrite (request_answered _ _ _ _ _ _ _ _ Hwire).
    by rewrite (proj2 (read_response_ok _ _) (conj Hst Hbody)).
Qed.

Lemma status_step rid (w : world remote) :
  snd (get_async_search_status rid w) =
  exchange w
    (Get (if ident_truthy rid
          then api_url (self w) ++ "/" ++ "filter" ++ "/" ++ ident_str rid ++ "/" ++ "status"
          else api_url (self w) ++ "/" ++ "filter" ++ "/" ++ "status")
       (<["apikey" := apikey (self w)]> (http_headers (self w)))).
Proof.
  unfold get_async_search_status, call_request. rewrite get_run.
  unfold build_url. rewrite lookup_empty. by destruct (ident_truthy rid).
Qed.

(** X18.  The status URL and the client are the same at every poll: [n]
    status checks in a row put exactly [n] exchanges on the wire, after
    those that were there, each one the same GET; the base URL and the API
    key of the client do not change. *)
Theorem poll_exchanges n rid (w : world remote) :
  let url :=
    if ident_truthy rid
    then api_url (self w) ++ "/" ++ "filter" ++ "/" ++ ident_str rid ++ "/" ++ "status"
    else api_url (self w) ++ "/" ++ "filter" ++ "/" ++ "status" in
  let rq := Get url (<["apikey" := apikey (self w)]> (http_headers (self w))) in
  ∃ news,
    wire (poll n rid w) = (wire w ++ news)%list
    ∧ length news = n
    ∧ Forall (λ x, fst x = rq) news
    ∧ api_url (self (poll n rid w)) = api_url (self w)
    ∧ apikey (self (poll n rid w)) = apikey (self w).
Proof.
  cbn zeta. induction n as [|n IH] in w |- *.
  - exists []. cbn. by rewrite app_nil_r.
  - cbn [poll]. rewrite status_step.
    set (rq := Get _ _).
    destruct (IH (exchange w rq)) as (news & Hwire & Hlen & Hall & Hurl & Hkey).
    cbn [exchange self stamped api_url apikey http_headers] in Hall, Hurl, Hkey.
    rewrite insert_insert_eq in Hall. fold rq in Hall.
    exists ((rq, fst (serve (net w) rq)) :: news).
    rewrite Hwire, wire_exchange, <- app_assoc. cbn.
    repeat split; [by f_equal | by constructor | done | done].
Qed.

End Api.

(** *** The constructor *)

(** X19.  [BaseChemSpider.__init__] sets the content type of the session to
    JSON and its user agent to the one given, or to the default one when
    none or an empty one is given; every other header of the session,
    [apikey] among them, is left as the session had it. *)
Theorem BaseChemSpider_init_headers session_headers default_agent key user_agent base path version :
  let c := BaseChemSpider_init session_headers default_agent key user_agent base path version in
  http_headers c !! "Content-Type" = Some (Some "application/json")
  ∧ (∀ ua, user_agent = Some ua → ua ≠ "" → http_headers c !! "User-Agent" = Some (Some ua))
  ∧ (user_agent = None ∨ user_agent = Some "" →
     http_headers c !! "User-Agent" = Some (Some default_agent))
  ∧ (∀ name, name ≠ "Content-Type" → name ≠ "User-Agent" →
     http_headers c !! name = session_headers !! name)
  ∧ apikey c = key.
Proof.
  cbn zeta. unfold BaseChemSpider_init. cbn [http_headers apikey].
  repeat split.
  - apply lookup_insert_eq.
  - intros ua -> Hua. apply String.eqb_neq in Hua. rewrite Hua.
    rewrite lookup_insert_ne by done. apply lookup_insert_eq.
  - intros [-> | ->]; rewrite lookup_insert_ne by done; apply lookup_insert_eq.
  - intros name H1 H2. by rewrite !lookup_insert_ne.
Qed.

(** ** Scenarios against the scripted service *)

Section Scenarios.

Import Fixture.

Local Abbreviation request := (request scripted loads).
Local Abbreviation search := (search scripted loads).

(** A 500 answer to a name search comes out as [ChemSpiPyAuthError]. *)
Lemma request_500_witness :
  fst (request "filter" "name" "POST" IdNone benzene (start [respond 500 "oops"]))
    = Raise (ChemSpiPyAuthError "Internal Server Error. Wait and try again.").
Proof.
  refine (proj1 (request_500_503_raises_AuthError scripted loads
                   "filter" "name" "POST" IdNone benzene (start [respond 500 "oops"])
                   benzene_post {| status_code := 500; text := "oops" |} _ _)).
  - vm_compute. reflexivity.
  - left. reflexivity.
Defined.

(** A 401 answer to a name search comes out as the authorization failure. *)
Lemma request_401_witness :
  fst (request "filter" "name" "POST" IdNone benzene (start [respond 401 "denied"]))
    = Raise (ChemSpiPyAuthError "Unauthorized. Check you have supplied the correct API key and that you have sent it as an HTTP Header called 'apikey'.").
Proof.
  refine (proj2 (request_listed_4xx_raises_AuthError scripted loads
                   "filter" "name" "POST" IdNone benzene (start [respond 401 "denied"])
                   benzene_post {| status_code := 401; text := "denied" |} _ _) _).
  - vm_compute. reflexivity.
  - cbn. lia.
  - reflexivity.
Defined.

(** A 403 answer is a rejection of the 4xx class, and it comes out as
    [ChemSpiPyServerError], not as [ChemSpiPyAuthError]. *)
Lemma request_403_raises_ServerError :
  fst (request "filter" "name" "POST" IdNone benzene (start [respond 403 "Forbidden"]))
    = Raise (ChemSpiPyServerError "Forbidden")
  ∧ ¬ ∃ msg,
      fst (request "filter" "name" "POST" IdNone benzene (start [respond 403 "Forbidden"]))
        = Raise (ChemSpiPyAuthError msg).
Proof.
  split; [vm_compute; reflexivity|].
  intros [msg H]. vm_compute in H. discriminate H.
Qed.

(** A page of HTML with status 200 comes out as [ChemSpiPyParseError]. *)
Lemma request_undecodable_witness :
  fst (request "filter" "name" "POST" IdNone benzene (start [respond 200 "<html>"]))
    = Raise (ChemSpiPyParseError
               "Unable to parse json response: Expecting value: line 1 column 1 (char 0)").
Proof.
  refine (request_undecodable_raises_ParseError scripted loads
            "filter" "name" "POST" IdNone benzene (start [respond 200 "<html>"])
            benzene_post {| status_code := 200; text := "<html>" |}
            "Expecting value: line 1 column 1 (char 0)" _ _ _).
  - vm_compute. reflexivity.
  - reflexivity.
  - vm_compute. reflexivity.
Defined.



(** The first request of a fresh client writes the [apikey] header of the
    shared session: the headers after the call are not those before it. *)
Lemma request_writes_apikey_header :
  http_headers (self (snd (request "filter" "status" "GET" (IdStr "abc-123") ∅
                             (start [respond 200 (quoted "ResultReady")]))))
    ≠ http_headers (self (start [respond 200 (quoted "ResultReady")])).
Proof.
  intros H. apply (f_equal (λ h : header_map, h !! "apikey")) in H.
  vm_compute in H. discriminate H.
Qed.

(** Polling a finished search: one GET, and the reported status. *)
Lemma get_async_search_status_witness :
  fst (get_async_search_status scripted loads (IdStr "abc-123")
         (start [respond 200 (quoted "ResultReady")]))
    = Ok (PyStr "ResultReady")
  ∧ wire (snd (get_async_search_status scripted loads (IdStr "abc-123")
                 (start [respond 200 (quoted "ResultReady")])))
      = [(status_get, respond 200 (quoted "ResultReady"))].
Proof.
  destruct (get_async_search_status_one_round_trip scripted loads (IdStr "abc-123")
              (start [respond 200 (quoted "ResultReady")])) as (Hwire & _ & Hret).
  split.
  - exact (Hret ResultReady {| status_code := 200; text := quoted "ResultReady" |}
             eq_refl eq_refl eq_refl).
  - etransitivity; [exact Hwire|]. vm_compute. reflexivity.
Defined.

(** A search with no [raise_errors] argument whose submission is answered
    401 returns a session holding the exception; it does not raise. *)
Lemma search_default_does_not_raise :
  fst (search (PyStr "benzene") None None None (start [respond 401 "denied"]))
    = Ok {| transaction_id := None; status := Unknown; count := None; message := None;
            exception := Some (ChemSpiPyAuthError "Unauthorized. Check you have supplied the correct API key and that you have sent it as an HTTP Header called 'apikey'.");
            raise_errors := false |}.
Proof. vm_compute. reflexivity. Qed.

(** A submission answered 401: by default the exception is found on the
    session, and under [raise_errors=True] it is raised.  And a submission
    answered with a transaction id, followed by a poll answered 401: the
    session built by default stores the exception of the poll. *)
Lemma search_default_witness :
  (search (PyStr "benzene") None None None (start [respond 401 "denied"])
     = (Ok {| transaction_id := None; status := Unknown; count := None; message := None;
              exception := Some (ChemSpiPyAuthError "Unauthorized. Check you have supplied the correct API key and that you have sent it as an HTTP Header called 'apikey'.");
              raise_errors := false |},
        snd (search (PyStr "benzene") None None None (start [respond 401 "denied"])))
   ∧ search (PyStr "benzene") None None (Some true) (start [respond 401 "denied"])
       = (Raise (ChemSpiPyAuthError "Unauthorized. Check you have supplied the correct API key and that you have sent it as an HTTP Header called 'apikey'."),
          snd (search (PyStr "benzene") None None None (start [respond 401 "denied"]))))
  ∧ ∃ session',
      Results_status scripted loads
          {| transaction_id := Some (PyStr "abc-123"); status := Unknown; count := None;
             message := None; exception := None; raise_errors := false |}
          (snd (search (PyStr "benzene") None None None
                  (start [respond 200 (quoted "abc-123"); respond 401 "denied"])))
        = (Ok (session', None),
           snd (get_async_search_status_and_count scripted loads (IdStr "abc-123")
                  (snd (search (PyStr "benzene") None None None
                          (start [respond 200 (quoted "abc-123"); respond 401 "denied"])))))
      ∧ exception session' = Some (ChemSpiPyAuthError "Unauthorized. Check you have supplied the correct API key and that you have sent it as an HTTP Header called 'apikey'.")
      ∧ transaction_id session' = Some (PyStr "abc-123").
Proof.
  split.
  - refine (proj1 (proj2 (search_default_stores_exception scripted loads
                            (PyStr "benzene") None None (start [respond 401 "denied"])))
              _ _ _).
    vm_compute. reflexivity.
  - refine (proj2 (proj1 (proj2 (proj2 (search_default_stores_exception scripted loads
                            (PyStr "benzene") None None
                            (start [respond 200 (quoted "abc-123"); respond 401 "denied"]))))
                     _ _ _) _ _ _).
    + vm_compute. reflexivity.
    + vm_compute. reflexivity.
Defined.

(** An order given together with [direction=None]: the body on the wire is
    the one of the plain submission, the name alone. *)
Lemma search_order_without_direction_is_plain :
  map (λ x, json_body (fst x))
      (wire (snd (search (PyStr "benzene") (Some (PyStr CSID)) (Some PyNone) None
                    (start [respond 200 (quoted "abc-123")]))))
    = [Some (PyDict [("name", PyStr "benzene")])].
Proof. vm_compute. reflexivity. Qed.

(** A search filtered on one data source stops on the unbound [data]. *)
Lemma datasources_witness :
  simple_search_by_formula scripted loads (PyStr "C6H6") (Some (PyList [PyStr "PubChem"]))
      (start [respond 200 "null"])
    = (Raise (NameError "data"), start [respond 200 "null"]).
Proof.
  refine (proj1 (datasources_raises_NameError scripted loads (start [respond 200 "null"]))
            (PyStr "C6H6") (PyList [PyStr "PubChem"]) _).
  reflexivity.
Defined.

End Scenarios.

(** ** Further scenarios *)

Section FurtherScenarios.

Import Fixture.

(** A name search answered 200 with a transaction id returns that id. *)
Lemma request_returns_witness :
  ("POST" = "GET" ∨ "POST" = "POST")
  ∧ ∃ rq r,
      wire (snd (request scripted loads "filter" "name" "POST" IdNone benzene
                   (start [respond 200 (quoted "abc-123")])))
        = (wire (start [respond 200 (quoted "abc-123")]) ++ [(rq, Responded r)])%list
      ∧ status_code r = 200
      ∧ loads (text r) = Decoded (PyStr "abc-123").
Proof.
  apply (request_returns_only_200 scripted loads "filter" "name" "POST" IdNone benzene
           (start [respond 200 (quoted "abc-123")]) (PyStr "abc-123")).
  vm_compute. reflexivity.
Defined.

(** A name search against a service that refuses the connection. *)
Lemma request_network_failure_witness :
  fst (request scripted loads "filter" "name" "POST" IdNone benzene (start []))
    = Raise (ChemSpiPyError "Connection refused").
Proof.
  refine (request_network_failure scripted loads "filter" "name" "POST" IdNone benzene
            (start []) benzene_post "Connection refused" _).
  vm_compute. reflexivity.
Defined.

(** A 204 answer is raised as a server error. *)
Lemma request_204_witness :
  fst (request scripted loads "filter" "name" "POST" IdNone benzene
         (start [respond 204 "No Content"]))
    = Raise (ChemSpiPyServerError "No Content").
Proof.
  refine (proj2 (request_non_200_raises scripted loads "filter" "name" "POST" IdNone benzene
                   (start [respond 204 "No Content"]) benzene_post
                   {| status_code := 204; text := "No Content" |} _ _) _).
  - vm_compute. reflexivity.
  - intros H. discriminate H.
  - intros H. cbn [status_code] in H.
    repeat (apply elem_of_cons in H as [H|H]; [discriminate H|]).
    apply elem_of_nil in H. exact H.
Defined.

(** A POST given a record identifier and fields goes to the plain URL. *)
Lemma post_record_id_witness :
  wire (snd (request scripted loads "filter" "name" "POST" (IdInt 2157)
               (<["fields" := PyList [PyStr "SMILES"]]> benzene)
               (start [respond 200 (quoted "abc-123")])))
    = [(benzene_post, respond 200 (quoted "abc-123"))].
Proof.
  etransitivity.
  - refine (post_ignores_record_id scripted loads "filter" "name" (IdInt 2157)
              (<["fields" := PyList [PyStr "SMILES"]]> benzene)
              (PyDict [("name", PyStr "benzene")])
              (start [respond 200 (quoted "abc-123")]) _ _).
    + vm_compute. reflexivity.
    + intros fields H. vm_compute in H. injection H as <-.
      exists ["SMILES"]. reflexivity.
  - vm_compute. reflexivity.
Defined.


(** The name search of a client built with the key [key] carries it. *)
Lemma request_sends_apikey_witness :
  headers_of benzene_post !! "apikey" = Some (Some "key").
Proof.
  refine (proj1 (request_sends_apikey scripted loads "filter" "name" "POST" IdNone benzene
                   (start [respond 200 (quoted "abc-123")]) benzene_post
                   (respond 200 (quoted "abc-123")) _)).
  vm_compute. reflexivity.
Defined.

(** A 401 is a typed error, and it came over the wire. *)
Lemma typed_error_witness :
  ∃ rq r,
    wire (snd (request scripted loads "filter" "name" "POST" IdNone benzene
                 (start [respond 401 "denied"])))
      = (wire (start [respond 401 "denied"]) ++ [(rq, Responded r)])%list.
Proof.
  refine (typed_error_after_response scripted loads "filter" "name" "POST" IdNone benzene
            (start [respond 401 "denied"])
            (ChemSpiPyAuthError "Unauthorized. Check you have supplied the correct API key and that you have sent it as an HTTP Header called 'apikey'.")
            _ _).
  - vm_compute. reflexivity.
  - reflexivity.
Defined.

(** The details of record 2157, two fields asked for. *)
Lemma get_extended_compound_info_witness :
  wire (snd (get_extended_compound_info scripted loads (IdInt 2157)
               {["fields" := PyList [PyStr "SMILES"; PyStr "Formula"]]}
               (start [respond 200 "null"])))
    = [(details_get "SMILES,Formula", respond 200 "null")].
Proof.
  etransitivity.
  - refine (proj1 (get_extended_compound_info_url scripted loads (IdInt 2157)
                     {["fields" := PyList [PyStr "SMILES"; PyStr "Formula"]]}
                     ["SMILES"; "Formula"] (start [respond 200 "null"]) _ _)).
    + reflexivity.
    + vm_compute. reflexivity.
  - vm_compute. reflexivity.
Defined.

(** The details of a record asked for without naming fields. *)
Lemma get_extended_compound_info_edges_witness :
  get_extended_compound_info scripted loads (IdInt 2157) ∅ (start [respond 200 "null"])
    = (Raise (KeyError "fields"), start [respond 200 "null"]).
Proof.
  refine (proj1 (get_extended_compound_info_edges scripted loads (IdInt 2157) ∅
                   (start [respond 200 "null"])) _).
  vm_compute. reflexivity.
Defined.

(** The field name SMILES given as a string, not in a list. *)
Lemma get_extended_compound_info_string_witness :
  wire (snd (get_extended_compound_info scripted loads (IdInt 2157)
               {["fields" := PyStr "SMILES"]} (start [respond 200 "null"])))
    = [(details_get "S,M,I,L,E,S", respond 200 "null")].
Proof.
  etransitivity.
  - refine (get_extended_compound_info_string_fields scripted loads (IdInt 2157)
              {["fields" := PyStr "SMILES"]} "SMILES" (start [respond 200 "null"]) _ _ _).
    + reflexivity.
    + vm_compute. reflexivity.
    + reflexivity.
  - vm_compute. reflexivity.
Defined.

(** The MOL file of record 2157, in two dimensions by default. *)
Lemma get_record_mol_request_witness :
  wire (snd (get_record_mol scripted (canned bodies) (IdInt 2157) None
               (start [respond 200 record_body])))
    = [(details_get "mol2D", respond 200 record_body)].
Proof.
  etransitivity.
  - refine (get_record_mol_request scripted (canned bodies) (IdInt 2157) None
              (start [respond 200 record_body]) _).
    reflexivity.
  - vm_compute. reflexivity.
Defined.

Lemma get_record_mol_witness :
  fst (get_record_mol scripted (canned bodies) (IdInt 2157) None
         (start [respond 200 record_body]))
    = Ok (PyStr "molfile").
Proof.
  refine (get_record_mol_first_field scripted (canned bodies) (IdInt 2157) None
            (start [respond 200 record_body]) (details_get "mol2D")
            {| status_code := 200; text := record_body |}
            [("id", PyInt 2157)] "mol2D" (PyStr "molfile") [] _ _ _ _ _).
  - vm_compute. reflexivity.
  - reflexivity.
  - vm_compute. reflexivity.
  - constructor; [reflexivity | constructor].
  - intros H. discriminate H.
Defined.

(** An answer that holds the identifier alone gives the identifier back. *)
Lemma get_record_mol_edges_witness :
  fst (get_record_mol scripted (canned bodies) (IdInt 2157) None
         (start [respond 200 id_body]))
    = Ok (PyInt 2157).
Proof.
  refine (proj1 (proj2 (get_record_mol_edges scripted (canned bodies) (IdInt 2157) None
                          (start [respond 200 id_body]) (details_get "mol2D")
                          {| status_code := 200; text := id_body |} _ _))
            (PyInt 2157) _).
  - vm_compute. reflexivity.
  - reflexivity.
  - vm_compute. reflexivity.
Defined.

(** The list of data sources. *)
Lemma get_databases_witness :
  fst (get_databases scripted (canned bodies) (start [respond 200 sources_body]))
    = Ok (PyList [PyStr "PubChem"; PyStr "ChEBI"]).
Proof.
  refine (proj1 (proj2 (get_databases_lookup scripted (canned bodies)
                          (start [respond 200 sources_body]))
                   {| status_code := 200; text := sources_body |}
                   [("dataSources", PyList [PyStr "PubChem"; PyStr "ChEBI"])] _ _ _)
            (PyList [PyStr "PubChem"; PyStr "ChEBI"]) _).
  - vm_compute. reflexivity.
  - reflexivity.
  - vm_compute. reflexivity.
  - reflexivity.
Defined.

(** A formula search answered with one identifier. *)
Lemma filter_search_witness :
  fst (simple_search_by_formula scripted (canned bodies) (PyStr "C6H6") None
         (start [respond 200 "[2157]"]))
    = Raise (AttributeError "text").
Proof.
  refine (proj2 (proj2 (filter_searches_return_empty scripted (canned bodies)
                          (start [respond 200 "[2157]"])))
            (PyStr "C6H6")
            (Post "https://api.rsc.org/compounds/v1/filter/formula"
               (PyDict [("formula", PyStr "C6H6")]) (http_headers (stamped cs)))
            {| status_code := 200; text := "[2157]" |} (PyInt 2157) [] _ _ _).
  - vm_compute. reflexivity.
  - reflexivity.
  - vm_compute. reflexivity.
Defined.

(** A client built with a user agent of its own. *)
Lemma BaseChemSpider_init_witness :
  http_headers (BaseChemSpider_init ∅ "ChemSpiPy/2.0.0 Python/3.8.10 " (Some "key")
                  (Some "my-app") "https://api.rsc.org" "compounds" "v1")
    !! "User-Agent" = Some (Some "my-app").
Proof.
  refine (proj1 (proj2 (BaseChemSpider_init_headers ∅ "ChemSpiPy/2.0.0 Python/3.8.10 "
                          (Some "key") (Some "my-app") "https://api.rsc.org" "compounds" "v1"))
            "my-app" eq_refl _).
  intros H. discriminate H.
Defined.

End FurtherScenarios.
